(** * The todo service: request handlers of [main.go]

    A shallow embedding of the HTTP handlers [createTodo], [fetchTodo],
    [updateTodo] and [deleteTodo] of [main.go], together with the parts of
    the libraries they call that decide their control flow: the object
    identifier codec and the struct-tag check of [gopkg.in/mgo.v2/bson],
    [encoding/hex], [strings.TrimSpace] and [strings.Split].

    Go strings are byte sequences; they are modelled by [string], whose
    characters are the 256 values of [ascii]. *)

From Stdlib Require Import ZArith NArith Ascii String List Lia.
From stdpp Require Import base gmap strings list.

Open Scope string_scope.
Open Scope Z_scope.

(** ** encoding/hex *)

Module hex.

Definition hextable : string := "0123456789abcdef".

(** [hextable[i]] *)
Definition digit (i : N) : ascii :=
  match String.get (N.to_nat i) hextable with
  | Some c => c
  | None => "0"%char
  end.

(** [dst[j] = hextable[v>>4]; dst[j+1] = hextable[v&0x0f]] for every byte
    [v] of the source. *)
Fixpoint EncodeToString (src : string) : string :=
  match src with
  | EmptyString => EmptyString
  | String v rest =>
      String (digit (N.shiftr (N_of_ascii v) 4))
        (String (digit (N.land (N_of_ascii v) 15)) (EncodeToString rest))
  end.

Inductive error : Type :=
| InvalidByteError (c : ascii)
| ErrLength.

(** The three ranges of the [switch] of [fromHexChar]; [None] is its
    [false] result. *)
Definition fromHexChar (c : ascii) : option N :=
  let n := N_of_ascii c in
  if (48 <=? n)%N && (n <=? 57)%N then Some (n - 48)%N
  else if (97 <=? n)%N && (n <=? 102)%N then Some (n - 97 + 10)%N
  else if (65 <=? n)%N && (n <=? 70)%N then Some (n - 65 + 10)%N
  else None.

(** [DecodeString] returns the bytes decoded before the first error
    together with that error: an invalid character is reported where it
    stands, an odd length after the last full pair. *)
Fixpoint DecodeString (s : string) : string * option error :=
  match s with
  | EmptyString => (EmptyString, None)
  | String c EmptyString =>
      match fromHexChar c with
      | None => (EmptyString, Some (InvalidByteError c))
      | Some _ => (EmptyString, Some ErrLength)
      end
  | String c1 (String c2 rest) =>
      match fromHexChar c1 with
      | None => (EmptyString, Some (InvalidByteError c1))
      | Some a =>
          match fromHexChar c2 with
          | None => (EmptyString, Some (InvalidByteError c2))
          | Some b =>
              let (d, err) := DecodeString rest in
              (String (ascii_of_N (N.lor (N.shiftl a 4) b)) d, err)
          end
      end
  end.

End hex.

(** ** strings.TrimSpace *)

Module strings.

Definition utf8 (bs : list N) : string :=
  string_of_list_ascii (map ascii_of_N bs).

(** The UTF-8 encodings of the code points with the Unicode White_Space
    property, which is what [unicode.IsSpace] tests: U+0009..U+000D,
    U+0020, U+0085, U+00A0, U+1680, U+2000..U+200A, U+2028, U+2029,
    U+202F, U+205F, U+3000. *)
Definition spaceRunes : list string :=
  [ utf8 [0x09]; utf8 [0x0A]; utf8 [0x0B]; utf8 [0x0C]; utf8 [0x0D];
    utf8 [0x20];
    utf8 [0xC2; 0x85]; utf8 [0xC2; 0xA0];
    utf8 [0xE1; 0x9A; 0x80];
    utf8 [0xE2; 0x80; 0x80]; utf8 [0xE2; 0x80; 0x81];
    utf8 [0xE2; 0x80; 0x82]; utf8 [0xE2; 0x80; 0x83];
    utf8 [0xE2; 0x80; 0x84]; utf8 [0xE2; 0x80; 0x85];
    utf8 [0xE2; 0x80; 0x86]; utf8 [0xE2; 0x80; 0x87];
    utf8 [0xE2; 0x80; 0x88]; utf8 [0xE2; 0x80; 0x89];
    utf8 [0xE2; 0x80; 0x8A];
    utf8 [0xE2; 0x80; 0xA8]; utf8 [0xE2; 0x80; 0xA9];
    utf8 [0xE2; 0x80; 0xAF]; utf8 [0xE2; 0x81; 0x9F];
    utf8 [0xE3; 0x80; 0x80] ]%N.

(** Width in bytes of the rune of [runes] that [s] starts with, [0] when
    it starts with none of them. *)
Definition runeWidth (runes : list string) (s : string) : nat :=
  match find (fun p => String.prefix p s) runes with
  | Some p => String.length p
  | None => 0%nat
  end.

(** Drops the runes of [runes] that [s] starts with; [skip] counts the
    bytes of the current rune still to drop. *)
Fixpoint trimLeft (runes : list string) (skip : nat) (s : string) : string :=
  match skip, s with
  | _, EmptyString => EmptyString
  | S k, String _ rest => trimLeft runes k rest
  | O, String _ rest =>
      match runeWidth runes s with
      | O => s
      | S k => trimLeft runes k rest
      end
  end.

Definition reverse (s : string) : string :=
  string_of_list_ascii (rev (list_ascii_of_string s)).

Definition TrimLeftSpace (s : string) : string := trimLeft spaceRunes 0 s.

(** A white-space rune ends [s] exactly when its encoding, read
    backwards, starts the reversed string. *)
Definition TrimRightSpace (s : string) : string :=
  reverse (trimLeft (map reverse spaceRunes) 0 (reverse s)).

(** [TrimSpace] removes all leading and all trailing white space. *)
Definition TrimSpace (s : string) : string :=
  TrimRightSpace (TrimLeftSpace s).

(** [strings.Split(s, sep)] for a separator of one byte: the pieces of
    [s] between the occurrences of [sep]; a string without [sep] is its
    own only piece. *)
Fixpoint Split (s : string) (sep : ascii) : list string :=
  match s with
  | EmptyString => [EmptyString]
  | String c rest =>
      if Ascii.eqb c sep then EmptyString :: Split rest sep
      else
        match Split rest sep with
        | piece :: pieces => String c piece :: pieces
        | [] => [String c EmptyString]
        end
  end.

End strings.

(** ** gopkg.in/mgo.v2/bson: object identifiers *)

(** A value a goroutine panics with. *)
Inductive panicValue : Type :=
| invalidObjectIdHex (s : string)
| unsupportedFlag (flag tag typ : string).

Module bson.

(** [type ObjectId string]: the twelve raw bytes of the identifier. *)
Definition ObjectId : Type := string.

(** What [NewObjectId] reads: the clock (Unix seconds), the three machine
    bytes, the process id and the package counter. *)
Record generator : Type := mkGenerator {
  now : Z;
  machineId : ascii * ascii * ascii;
  processId : Z;
  objectIdCounter : Z
}.

(** Conversion of an integer to [byte]: the low eight bits. *)
Definition byte (z : Z) : ascii := ascii_of_N (Z.to_N (Z.land z 255)).

(** Four bytes of time, three of machine, two of pid, three of counter,
    each big endian; the counter is an atomically incremented [uint32]. *)
Definition NewObjectId (g : generator) : ObjectId * generator :=
  let t := (now g) mod 2 ^ 32 in
  let '(m0, m1, m2) := machineId g in
  let i := (objectIdCounter g + 1) mod 2 ^ 32 in
  (String (byte (Z.shiftr t 24)) (String (byte (Z.shiftr t 16))
    (String (byte (Z.shiftr t 8)) (String (byte t)
    (String m0 (String m1 (String m2
    (String (byte (Z.shiftr (processId g) 8)) (String (byte (processId g))
    (String (byte (Z.shiftr i 16)) (String (byte (Z.shiftr i 8))
    (String (byte i) EmptyString))))))))))),
   {| now := now g; machineId := machineId g; processId := processId g;
      objectIdCounter := i |}).

(** [id.Hex()] *)
Definition Hex (id : ObjectId) : string := hex.EncodeToString id.

(** [IsObjectIdHex]: twenty-four characters that decode as hex. *)
Definition IsObjectIdHex (s : string) : bool :=
  if negb (Nat.eqb (String.length s) 24) then false
  else
    match snd (hex.DecodeString s) with
    | None => true
    | Some _ => false
    end.

(** [ObjectIdHex] panics unless the string decodes to twelve bytes. *)
Definition ObjectIdHex (s : string) : ObjectId + panicValue :=
  let (d, err) := hex.DecodeString s in
  match err with
  | Some _ => inr (invalidObjectIdHex s)
  | None =>
      if negb (Nat.eqb (String.length d) 12) then inr (invalidObjectIdHex s)
      else inl d
  end.

(** The flags [getStructInfo] accepts after the key of a struct tag. *)
Definition supportedFlag (flag : string) : bool :=
  String.eqb flag "omitempty" || String.eqb flag "minsize" || String.eqb flag "inline".

(** The tag loop of [getStructInfo], run whenever a struct of type [typ]
    is marshalled or unmarshalled: each field's tag is split at the
    commas, and a piece after the first that is not exactly a supported
    flag makes it panic with "Unsupported flag ... in tag ... of type
    ...". That panic is an [externalPanic], which [Marshal] and
    [Unmarshal] raise again instead of returning an error. [tags] are the
    [bson] tags of the fields in order. *)
Fixpoint getStructInfo (typ : string) (tags : list string) : option panicValue :=
  match tags with
  | [] => None
  | tag :: rest =>
      if String.eqb tag "-" then getStructInfo typ rest
      else
        match find (fun flag => negb (supportedFlag flag))
                (tail (strings.Split tag ","%char)) with
        | Some flag => Some (unsupportedFlag flag tag typ)
        | None => getStructInfo typ rest
        end
  end.

End bson.

(** ** main.go: data *)

(** A Go [error] value, known by its message. *)
Inductive error : Type :=
| errorString (msg : string).

(** [time.Time], as nanoseconds since its zero value. *)
Definition Time : Type := Z.
Definition zeroTime : Time := 0.

Module todoModel.
Record todoModel : Type := mk {
  ID : bson.ObjectId;
  Title : string;
  Completed : bool;
  CreatedAt : Time
}.

(** The [bson] struct tags of the four fields, as written at main.go
    lines 31-34; the first has a space after its comma. *)
Definition tags : list string :=
  ["_id, omitempty"; "title"; "completed"; "createdAt"].

(** The name of the type as [reflect] prints it. *)
Definition name : string := "main.todoModel".
End todoModel.
Abbreviation todoModel := todoModel.todoModel.

Module todo.
Record todo : Type := mk {
  ID : string;
  Title : string;
  Completed : bool;
  CreatedAt : Time
}.
End todo.
Abbreviation todo := todo.todo.

(** What [bson] panics with when it reads the struct tags of [todoModel]:
    the piece after the comma of the first tag is " omitempty", with its
    space, which is not a flag. *)
Definition todoModelPanic : panicValue :=
  unsupportedFlag " omitempty" "_id, omitempty" "main.todoModel".

(** A Go slice is [nil] or holds elements; [append] never yields [nil]
    here since it always adds one element. *)
Inductive slice (A : Type) : Type :=
| nil_slice
| slice_of (elems : list A).
Arguments nil_slice {A}.
Arguments slice_of {A} elems.

Definition elements {A : Type} (s : slice A) : list A :=
  match s with
  | nil_slice => []
  | slice_of l => l
  end.

Definition append {A : Type} (s : slice A) (x : A) : slice A :=
  slice_of (elements s ++ [x]).

(** HTTP status codes of [net/http] used by the handlers. *)
Definition StatusProcessing : Z := 102.
Definition StatusOK : Z := 200.
Definition StatusCreated : Z := 201.
Definition StatusBadRequest : Z := 400.

(** The values the handlers store in a [renderer.M]. *)
Inductive Value : Type :=
| VString (s : string)
| VError (e : error)
| VTodos (l : slice todo).

(** [renderer.M] is [map[string]interface{}]. *)
Abbreviation M := (gmap string Value).

(** What a handler hands to [rndr.JSON]: an error value (line 114) or a
    [renderer.M]. *)
Inductive Payload : Type :=
| PError (e : error)
| PMap (m : M).

#[local] Set Warnings "-register-all".

(** JSON documents as [encoding/json] writes them. [JError e] stands for the
    encoding of the error value [e], which depends on its dynamic type. *)
Inductive JSON : Type :=
| JNull
| JBool (b : bool)
| JString (s : string)
| JTime (t : Time)
| JError (e : error)
| JArray (l : list JSON)
| JObject (fields : list (string * JSON)).

(** The struct tags of [todo]. *)
Definition marshalTodo (t : todo) : JSON :=
  JObject [ ("id", JString (todo.ID t)); ("title", JString (todo.Title t));
            ("completed", JBool (todo.Completed t));
            ("createdAt", JTime (todo.CreatedAt t)) ].

(** A nil slice is written as [null], any other slice as an array. *)
Definition marshal (v : Value) : JSON :=
  match v with
  | VString s => JString s
  | VError e => JError e
  | VTodos nil_slice => JNull
  | VTodos (slice_of l) => JArray (map marshalTodo l)
  end.

(** The JSON object written for a [renderer.M], key by key. *)
Definition marshalM (m : M) : gmap string JSON := marshal <$> m.

(** ** Requests *)

(** What [json.NewDecoder(r.Body).Decode] finds in a request body: either
    the body makes it return an error, or it is a document in which each
    field of [todo] is present (with a value of the field's type) or
    absent. *)
Inductive requestBody : Type :=
| Undecodable (err : error)
| Document (id title : option string) (completed : option bool)
    (createdAt : option Time).

Record Request : Type := mkRequest {
  Body : requestBody;
  URLParams : list (string * string)
}.

Module chi.
(** The value of the last route parameter named [key], [""] without. *)
Definition URLParam (r : Request) (key : string) : string :=
  match find (fun kv => String.eqb (fst kv) key) (rev (URLParams r)) with
  | Some kv => snd kv
  | None => ""
  end.
End chi.

Module json.
(** [Decode(&t)] stores the fields present in the document and leaves
    the others as they are. *)
Definition Decode (b : requestBody) (t : todo) : todo * option error :=
  match b with
  | Undecodable err => (t, Some err)
  | Document id title completed createdAt =>
      ({| todo.ID := default (todo.ID t) id;
          todo.Title := default (todo.Title t) title;
          todo.Completed := default (todo.Completed t) completed;
          todo.CreatedAt := default (todo.CreatedAt t) createdAt |}, None)
  end.
End json.

(** [var t todo]: the zero value. *)
Definition zero_todo : todo :=
  {| todo.ID := ""; todo.Title := ""; todo.Completed := false;
     todo.CreatedAt := zeroTime |}.

(** ** The mapper *)

(** The struct literal of [createTodo], lines 127-132. *)
Definition toRecord (t : todo) (id : bson.ObjectId) : todoModel :=
  {| todoModel.ID := id;
     todoModel.Title := todo.Title t;
     todoModel.Completed := todo.Completed t;
     todoModel.CreatedAt := todo.CreatedAt t |}.

(** The struct literal of [fetchTodo], lines 166-171. *)
Definition toWire (t : todoModel) : todo :=
  {| todo.ID := bson.Hex (todoModel.ID t);
     todo.Title := todoModel.Title t;
     todo.Completed := todoModel.Completed t;
     todo.CreatedAt := todoModel.CreatedAt t |}.

(** ** Collaborators and effects *)

(** The server behind [db.C(collectionName)] and the response writer
    behind [rndr.JSON], each known by what its calls return.
    [AcquireSocket] is the first step of a write: it fails when no server
    can be reached. [Insert] is the server's part of an insert, after the
    driver has marshalled the document. [All] gives the documents the
    cursor of [Find(bson.M{})] delivers, and the error, if any, that ends
    the iteration after them. *)
Class Collaborators : Type := {
  Store : Type;
  AcquireSocket : Store -> option error;
  Insert : todoModel -> Store -> option error * Store;
  All : Store -> list todoModel * option error;
  RemoveId : bson.ObjectId -> Store -> option error * Store;
  writeJSON : Z -> Payload -> option error
}.

(** What a handler does that is visible outside it, in order. *)
Inductive Event : Type :=
| Inserted (tm : todoModel)
| Found
| Removed (id : bson.ObjectId)
| Rendered (status : Z) (v : Payload)
| Fatal (e : error).

Definition isStoreCall (e : Event) : bool :=
  match e with
  | Inserted _ | Found | Removed _ => true
  | Rendered _ _ | Fatal _ => false
  end.

(** How a handler ends: it returns, it panics, or the process exits. *)
Inductive Outcome (A : Type) : Type :=
| Returned (a : A)
| Panicked (v : panicValue)
| Exited (code : Z).
Arguments Returned {A} a.
Arguments Panicked {A} v.
Arguments Exited {A} code.

Section Handlers.

Context {C : Collaborators}.

Record World : Type := mkWorld {
  db : Store;
  ids : bson.generator;
  trace : list Event
}.

Definition Handler (A : Type) : Type := World -> Outcome A * World.

#[export] Instance Handler_ret : MRet Handler :=
  fun A a w => (Returned a, w).

#[export] Instance Handler_bind : MBind Handler :=
  fun A B k m w =>
    match m w with
    | (Returned a, w') => k a w'
    | (Panicked v, w') => (Panicked v, w')
    | (Exited c, w') => (Exited c, w')
    end.

Definition emit (e : Event) : Handler unit :=
  fun w => (Returned tt,
            {| db := db w; ids := ids w; trace := trace w ++ [e] |}).

Definition panic {A : Type} (v : panicValue) : Handler A :=
  fun w => (Panicked v, w).

(** [log.Fatal] prints and calls [os.Exit(1)]. *)
Definition log_Fatal (e : error) : Handler unit :=
  fun w => (Exited 1,
            {| db := db w; ids := ids w; trace := trace w ++ [Fatal e] |}).

(** [checkerr], main.go lines 87-91. *)
Definition checkerr (err : option error) : Handler unit :=
  match err with
  | Some e => log_Fatal e
  | None => mret tt
  end.

Definition rndr_JSON (status : Z) (v : Payload) : Handler (option error) :=
  _ ← emit (Rendered status v); mret (writeJSON status v).

Definition NewObjectId : Handler bson.ObjectId :=
  fun w => let (id, g) := bson.NewObjectId (ids w) in
           (Returned id, {| db := db w; ids := g; trace := trace w |}).

Definition ObjectIdHex (s : string) : Handler bson.ObjectId :=
  match bson.ObjectIdHex s with
  | inl id => mret id
  | inr v => panic v
  end.

(** [db.C(collectionName).Insert(&tm)]: the driver acquires a socket and
    returns the error if it gets none; it then marshals [tm], for which
    [bson] reads the struct tags of [todoModel] and panics if they are
    not well formed; only then is the insert sent to the server. *)
Definition db_Insert (tm : todoModel) : Handler (option error) :=
  fun w =>
    let called := {| db := db w; ids := ids w; trace := trace w ++ [Inserted tm] |} in
    match AcquireSocket (db w) with
    | Some e => (Returned (Some e), called)
    | None =>
        match bson.getStructInfo todoModel.name todoModel.tags with
        | Some v => (Panicked v, called)
        | None =>
            let (err, s) := Insert tm (db w) in
            (Returned err,
             {| db := s; ids := ids w; trace := trace w ++ [Inserted tm] |})
        end
    end.

(** [db.C(collectionName).Find(bson.M{}).All(&todos)]: the documents the
    cursor delivers are unmarshalled one by one into [todoModel] values,
    for which [bson] reads the struct tags as above, so the first document
    already panics if they are not well formed; without any document the
    call returns the empty slice and the error of the iteration. *)
Definition db_All : Handler (list todoModel * option error) :=
  fun w =>
    let called := {| db := db w; ids := ids w; trace := trace w ++ [Found] |} in
    let (docs, err) := All (db w) in
    match docs with
    | [] => (Returned ([], err), called)
    | _ :: _ =>
        match bson.getStructInfo todoModel.name todoModel.tags with
        | Some v => (Panicked v, called)
        | None => (Returned (docs, err), called)
        end
    end.

Definition db_RemoveId (id : bson.ObjectId) : Handler (option error) :=
  fun w => let (err, s) := RemoveId id (db w) in
           (Returned err,
            {| db := s; ids := ids w; trace := trace w ++ [Removed id] |}).

(** ** The handlers *)

(** [createTodo], main.go lines 110-148. *)
Definition createTodo (r : Request) : Handler unit :=
  let (t, err) := json.Decode (Body r) zero_todo in
  match err with
  | Some e =>
      err1 ← rndr_JSON StatusProcessing (PError e);
      match err1 with
      | Some _ => checkerr err1
      | None => mret tt
      end
  | None =>
      if String.eqb (todo.Title t) "" then
        _ ← rndr_JSON StatusProcessing
              (PMap {[ "error" := VString "The title cannot be empty" ]});
        mret tt
      else
        id ← NewObjectId;
        let tm := toRecord t id in
        err ← db_Insert tm;
        match err with
        | Some e =>
            err1 ← rndr_JSON StatusProcessing
                     (PMap {[ "message" := VString "Failed to create TODO";
                              "error" := VError e ]});
            match err1 with
            | Some _ => checkerr err1
            | None => mret tt
            end
        | None =>
            _ ← rndr_JSON StatusCreated
                  (PMap {[ "message" := VString "TODO created successfully";
                           "todo_id" := VString (bson.Hex (todoModel.ID tm)) ]});
            mret tt
        end
  end.

(** [fetchTodo], main.go lines 150-179. *)
Definition fetchTodo (r : Request) : Handler unit :=
  '(todos, err) ← db_All;
  match err with
  | Some e =>
      err1 ← rndr_JSON StatusProcessing
               (PMap {[ "message" := VString "Failed to fetch todo";
                        "error" := VError e ]});
      match err1 with
      | Some _ => checkerr err1
      | None => mret tt
      end
  | None =>
      let todoList :=
        fold_left (fun todoList t => append todoList (toWire t))
          todos (slice_of []) in
      err1 ← rndr_JSON StatusOK (PMap {[ "data" := VTodos todoList ]});
      match err1 with
      | Some _ => checkerr err1
      | None => mret tt
      end
  end.

(** [updateTodo], main.go lines 181-183: the body is empty. *)
Definition updateTodo (r : Request) : Handler unit := mret tt.

(** [deleteTodo], main.go lines 185-209. Go evaluates the argument
    [bson.ObjectIdHex(id)] before it calls [RemoveId]. *)
Definition deleteTodo (r : Request) : Handler unit :=
  let id := strings.TrimSpace (chi.URLParam r "id") in
  if bson.IsObjectIdHex id then
    err1 ← rndr_JSON StatusBadRequest
             (PMap {[ "error" := VString "Invalid URL request" ]});
    match err1 with
    | Some _ => checkerr err1
    | None => mret tt
    end
  else
    oid ← ObjectIdHex id;
    err ← db_RemoveId oid;
    match err with
    | Some e =>
        err1 ← rndr_JSON StatusProcessing
                 (PMap {[ "message" := VString "Failed to remove TODO";
                          "error" := VError e ]});
        match err1 with
        | Some _ => checkerr err1
        | None => mret tt
        end
    | None => mret tt
    end.

(** ** What the client receives *)

Record Response : Type := mkResponse {
  status : Z;
  body : option Payload
}.

Fixpoint firstRendered (tr : list Event) : option (Z * Payload) :=
  match tr with
  | [] => None
  | Rendered st v :: _ => Some (st, v)
  | _ :: rest => firstRendered rest
  end.

(** [net/http] sends what the handler wrote; when the handler returns
    having written nothing, the server sends [StatusOK] with an empty
    body. [events] are the events of the handler's run. *)
Definition finishRequest (events : list Event) : Response :=
  match firstRendered events with
  | Some (st, v) =>
      {| status := st;
         body := match writeJSON st v with None => Some v | Some _ => None end |}
  | None => {| status := StatusOK; body := None |}
  end.

(** The events a handler's run added to the trace. *)
Definition written (w w' : World) : list Event :=
  drop (length (trace w)) (trace w').

(** [net/http] serving one request: the response is finished when the
    handler returns; a panic is recovered by the server, which closes
    the connection without a response. *)
Definition serve (h : Handler unit) (w : World) : option Response * World :=
  match h w with
  | (Returned _, w') => (Some (finishRequest (written w w')), w')
  | (_, w') => (None, w')
  end.

End Handlers.

(** ** The router *)

Inductive Method : Type := GET | POST | PUT | DELETE.

Section Router.

Context {C : Collaborators}.

(** One registration on a [chi] router: method, pattern and handler. *)
Record Route : Type := mkRoute {
  method : Method;
  pattern : string;
  handler : Request -> Handler unit
}.

(** [todoHandler], main.go lines 99-108: the routes of the group, in the
    order they are registered. *)
Definition todoHandler : list Route :=
  [ mkRoute POST "/" createTodo;
    mkRoute GET "/" fetchTodo;
    mkRoute PUT "/{id}" updateTodo;
    mkRoute DELETE "/{id}" deleteTodo ].

(** The calls on the collection among the events of a run. *)
Definition storeCalls (events : list Event) : list Event :=
  List.filter isStoreCall events.

End Router.

(** ** Errors of the create handler, as specified *)

(** The error classes of a create request as the specification names
    them: the body does not decode, the title is empty, or the insert
    fails (for the record [tm], with the store's error). *)
Inductive createError : Type :=
| DecodeError (e : error)
| ValidationError
| StoreError (tm : todoModel) (e : error).

(** The error class a create request falls in, following the steps of
    the specification: decode, validate, generate and insert. *)
Definition createFails {C : Collaborators} (r : Request) (w : World) : option createError :=
  match json.Decode (Body r) zero_todo with
  | (_, Some e) => Some (DecodeError e)
  | (t, None) =>
      if decide (todo.Title t = "") then Some ValidationError
      else
        let tm := toRecord t (fst (bson.NewObjectId (ids w))) in
        match fst (db_Insert tm w) with
        | Returned (Some e) => Some (StoreError tm e)
        | _ => None
        end
  end.

(** The JSON error payload the specification gives each class. *)
Definition errorPayload (ce : createError) : Payload :=
  match ce with
  | DecodeError e => PError e
  | ValidationError => PMap {[ "error" := VString "The title cannot be empty" ]}
  | StoreError _ e =>
      PMap {[ "message" := VString "Failed to create TODO"; "error" := VError e ]}
  end.

(** The same world with another state of the identifier generator. *)
Definition withGenerator {C : Collaborators} (g : bson.generator) (w : World) : World :=
  {| db := db w; ids := g; trace := trace w |}.

(** Whether [h] occurs in [s] as a contiguous piece. *)
Fixpoint occursIn (h s : string) : bool :=
  String.prefix h s
  || match s with
     | EmptyString => false
     | String _ rest => occursIn h rest
     end.

(** ** Sample collaborators *)

(** An in-memory collection that can be cut off from the server, and two
    response writers; they instantiate the statements below. *)
Module memory.

Record collection : Type := mkCollection {
  docs : list todoModel;
  reachable : bool
}.

Definition EOF : error := errorString "EOF".
Definition ErrNotFound : error := errorString "not found".
Definition errDuplicateKey : error := errorString "E11000 duplicate key error".

Definition hasId (id : bson.ObjectId) (l : list todoModel) : bool :=
  existsb (fun d => String.eqb (todoModel.ID d) id) l.

Definition insert (tm : todoModel) (c : collection) : option error * collection :=
  if negb (reachable c) then (Some EOF, c)
  else if hasId (todoModel.ID tm) (docs c) then (Some errDuplicateKey, c)
  else (None, {| docs := docs c ++ [tm]; reachable := true |}).

Definition all (c : collection) : list todoModel * option error :=
  if reachable c then (docs c, None) else ([], Some EOF).

Definition acquire (c : collection) : option error :=
  if reachable c then None else Some EOF.

Definition removeId (id : bson.ObjectId) (c : collection) : option error * collection :=
  if negb (reachable c) then (Some EOF, c)
  else if hasId id (docs c) then
    (None, {| docs := List.filter (fun d => negb (String.eqb (todoModel.ID d) id)) (docs c);
              reachable := true |})
  else (Some ErrNotFound, c).

(** A writer that accepts every status and body. *)
Definition lenientWriter (st : Z) (v : Payload) : option error := None.

Definition ErrBodyNotAllowed : error :=
  errorString "http: request method or response status code does not allow body".

(** [bodyAllowedForStatus] of [net/http]. *)
Definition bodyAllowedForStatus (st : Z) : bool :=
  if (100 <=? st) && (st <=? 199) then false
  else if st =? 204 then false
  else if st =? 304 then false
  else true.

(** A writer that refuses a body under a status that has none. *)
Definition strictWriter (st : Z) (v : Payload) : option error :=
  if bodyAllowedForStatus st then None else Some ErrBodyNotAllowed.

Definition lenient : Collaborators :=
  {| Store := collection; AcquireSocket := acquire; Insert := insert; All := all;
     RemoveId := removeId; writeJSON := lenientWriter |}.

Definition strict : Collaborators :=
  {| Store := collection; AcquireSocket := acquire; Insert := insert; All := all;
     RemoveId := removeId; writeJSON := strictWriter |}.

Definition gen0 : bson.generator :=
  {| bson.now := 1700000000; bson.machineId := ("a", "b", "c")%char;
     bson.processId := 4242; bson.objectIdCounter := 7 |}.

Definition doc1 : todoModel :=
  {| todoModel.ID := fst (bson.NewObjectId
                           {| bson.now := 1600000000;
                              bson.machineId := ("a", "b", "c")%char;
                              bson.processId := 4242;
                              bson.objectIdCounter := 1 |});
     todoModel.Title := "buy milk";
     todoModel.Completed := false;
     todoModel.CreatedAt := 1234 |}.

Definition POST (b : requestBody) : Request :=
  {| Body := b; URLParams := [] |}.

(** A request routed through [/todo/{id}]. *)
Definition withId (id : string) : Request :=
  {| Body := Document None None None None; URLParams := [("id", id)] |}.

Definition online : collection := {| docs := [doc1]; reachable := true |}.
Definition offline : collection := {| docs := [doc1]; reachable := false |}.
Definition empty : collection := {| docs := []; reachable := true |}.

Definition world (C : Collaborators) (s : @Store C) : @World C :=
  {| db := s; ids := gen0; trace := [] |}.

End memory.

Example TrimSpace_ex1 : strings.TrimSpace "  ab c	" = "ab c".
Proof. reflexivity. Qed.

Example TrimSpace_ex2 :
  strings.TrimSpace (strings.utf8 [0xC2; 0xA0; 0x41; 0xE2; 0x80; 0x89; 0x20]%N) = "A".
Proof. reflexivity. Qed.

Example TrimSpace_ex3 :
  strings.TrimSpace (strings.utf8 [0xC2; 0x41; 0x80]%N) = strings.utf8 [0xC2; 0x41; 0x80]%N.
Proof. reflexivity. Qed.

Example Encode_ex : hex.EncodeToString (strings.utf8 [0x5d; 0xff; 0x00; 0x0a]%N) = "5dff000a".
Proof. reflexivity. Qed.

Example Decode_ex : hex.DecodeString "5dFf000a" = (strings.utf8 [0x5d; 0xff; 0x00; 0x0a]%N, None).
Proof. reflexivity. Qed.

Example Split_tag : strings.Split "_id, omitempty" ","%char = ["_id"; " omitempty"].
Proof. reflexivity. Qed.

Example Split_plain : strings.Split "title" ","%char = ["title"].
Proof. reflexivity. Qed.

Example getStructInfo_well_formed :
  bson.getStructInfo "main.todoModel" ["_id,omitempty"; "title"; "completed"; "createdAt"] = None.
Proof. reflexivity. Qed.

Example Decode_ex2 : hex.DecodeString "5dx" = (strings.utf8 [0x5d]%N, Some (hex.InvalidByteError "x")).
Proof. reflexivity. Qed.

(** ** The identifier codec *)

Section PairInduction.

Variable P : string -> Prop.
Hypothesis P_empty : P EmptyString.
Hypothesis P_single : forall c, P (String c EmptyString).
Hypothesis P_pair : forall c1 c2 rest, P rest -> P (String c1 (String c2 rest)).

(** Induction over a string two characters at a time, as the loop of
    [hex.Decode] walks it. *)
Lemma string_pair_ind : forall s, P s.
Proof.
  assert (both : forall s, P s /\ forall c, P (String c s)).
  { induction s as [| c s [IHs IHcs]].
    - split; [exact P_empty | exact P_single].
    - split; [apply IHcs | intros c0; apply P_pair; exact IHs]. }
  intros s. apply both.
Qed.

End PairInduction.

Lemma DecodeString_length (s : string) :
  (2 * String.length (fst (hex.DecodeString s)) <= String.length s)%nat /\
  (snd (hex.DecodeString s) = None ->
   String.length s = (2 * String.length (fst (hex.DecodeString s)))%nat).
Proof.
  induction s as [| c | c1 c2 rest [IHle IHeq]] using string_pair_ind.
  - split; reflexivity.
  - cbn [hex.DecodeString]. destruct (hex.fromHexChar c); cbn; split; (lia || discriminate).
  - cbn [hex.DecodeString].
    destruct (hex.fromHexChar c1); [| cbn; split; (lia || discriminate)].
    destruct (hex.fromHexChar c2); [| cbn; split; (lia || discriminate)].
    destruct (hex.DecodeString rest) as [d err]. cbn in *. split.
    + lia.
    + intros Herr. specialize (IHeq Herr). lia.
Qed.

Lemma hex_byte_roundtrip (v : ascii) :
  hex.fromHexChar (hex.digit (N.shiftr (N_of_ascii v) 4)) = Some (N.shiftr (N_of_ascii v) 4) /\
  hex.fromHexChar (hex.digit (N.land (N_of_ascii v) 15)) = Some (N.land (N_of_ascii v) 15) /\
  ascii_of_N (N.lor (N.shiftl (N.shiftr (N_of_ascii v) 4) 4) (N.land (N_of_ascii v) 15)) = v.
Proof.
  destruct v as [[] [] [] [] [] [] [] []]; repeat split; reflexivity.
Qed.

Lemma DecodeString_EncodeToString (id : string) :
  hex.DecodeString (hex.EncodeToString id) = (id, None).
Proof.
  induction id as [| v rest IH]; [reflexivity |].
  cbn [hex.EncodeToString hex.DecodeString].
  destruct (hex_byte_roundtrip v) as (Hhi & Hlo & Hv).
  rewrite Hhi, Hlo, IH, Hv. reflexivity.
Qed.

Lemma length_EncodeToString (id : string) :
  String.length (hex.EncodeToString id) = (2 * String.length id)%nat.
Proof.
  induction id as [| v rest IH]; [reflexivity |].
  cbn [hex.EncodeToString String.length]. rewrite IH. lia.
Qed.

Lemma length_NewObjectId (g : bson.generator) :
  String.length (fst (bson.NewObjectId g)) = 12%nat.
Proof.
  unfold bson.NewObjectId. destruct (bson.machineId g) as [[m0 m1] m2]. reflexivity.
Qed.

(** An identifier of twelve bytes has a valid external form. *)
Lemma IsObjectIdHex_Hex (id : bson.ObjectId) :
  String.length id = 12%nat -> bson.IsObjectIdHex (bson.Hex id) = true.
Proof.
  intros Hlen. unfold bson.IsObjectIdHex, bson.Hex.
  rewrite length_EncodeToString, Hlen, DecodeString_EncodeToString. reflexivity.
Qed.

(** The guard [IsObjectIdHex] is exactly the precondition of
    [ObjectIdHex]: the decode panics on every string the guard rejects. *)
Lemma ObjectIdHex_invalid (s : string) :
  bson.IsObjectIdHex s = false -> bson.ObjectIdHex s = inr (invalidObjectIdHex s).
Proof.
  unfold bson.IsObjectIdHex, bson.ObjectIdHex. intros Hguard.
  destruct (DecodeString_length s) as [_ Hlen].
  destruct (hex.DecodeString s) as [d [e |]]; cbn in *; [reflexivity |].
  specialize (Hlen eq_refl).
  destruct (Nat.eqb_spec (String.length s) 24) as [H24 | H24]; cbn in Hguard;
    [discriminate |].
  destruct (Nat.eqb_spec (String.length d) 12) as [H12 | H12]; cbn; [lia | reflexivity].
Qed.

Lemma ObjectIdHex_valid (s : string) :
  bson.IsObjectIdHex s = true -> bson.ObjectIdHex s = inl (fst (hex.DecodeString s)).
Proof.
  unfold bson.IsObjectIdHex, bson.ObjectIdHex. intros Hguard.
  destruct (DecodeString_length s) as [_ Hlen].
  destruct (Nat.eqb_spec (String.length s) 24) as [H24 | H24]; cbn in Hguard;
    [| discriminate].
  destruct (hex.DecodeString s) as [d [e |]]; cbn in *; [discriminate |].
  specialize (Hlen eq_refl).
  destruct (Nat.eqb_spec (String.length d) 12) as [H12 | H12]; cbn; [reflexivity | lia].
Qed.

(** ** The mapper *)

(** C3: mapping a wire task to a record with a generated identifier and the
    record back to wire form keeps title, completed and createdAt, and puts
    the external encoding of the identifier in the wire id; for an
    identifier made by [NewObjectId] that encoding is not empty (it is a
    valid external identifier of 24 characters). The title need not even be
    non-empty. *)
Theorem toWire_toRecord_roundtrip (t : todo) (g : bson.generator) :
  let id := fst (bson.NewObjectId g) in
  toWire (toRecord t id) =
    {| todo.ID := bson.Hex id;
       todo.Title := todo.Title t;
       todo.Completed := todo.Completed t;
       todo.CreatedAt := todo.CreatedAt t |}
  /\ bson.Hex id <> ""
  /\ String.length (bson.Hex id) = 24%nat
  /\ bson.IsObjectIdHex (bson.Hex id) = true.
Proof.
  intros id. pose proof (length_NewObjectId g) as Hlen. fold id in Hlen.
  assert (H24 : String.length (bson.Hex id) = 24%nat).
  { unfold bson.Hex. rewrite length_EncodeToString, Hlen. reflexivity. }
  repeat split.
  - intros Hempty. rewrite Hempty in H24. discriminate.
  - exact H24.
  - apply IsObjectIdHex_Hex, Hlen.
Qed.

(** ** Facts about the handlers *)

(** Unfolds the effect primitives so that a handler applied to a world
    computes. *)
Ltac run_handler :=
  unfold rndr_JSON, checkerr, log_Fatal, emit, panic, db_Insert, db_All,
    db_RemoveId, NewObjectId, ObjectIdHex, mbind, mret, Handler_bind,
    Handler_ret; cbn beta iota.

Lemma written_app {C : Collaborators} (w : World) (evs : list Event)
    (s : Store) (g : bson.generator) :
  written w {| db := s; ids := g; trace := trace w ++ evs |} = evs.
Proof. unfold written. cbn. apply drop_app_length. Qed.

(** C2: a create request whose decoded body has an empty title gets the
    payload [{error: "The title cannot be empty"}] (status 102) and the
    handler returns without any call on the store: the only event of the
    run is that rendering, and the collection and the identifier generator
    are as before. *)
Theorem createTodo_empty_title {C : Collaborators} (r : Request) (w : World) (t : todo) :
  json.Decode (Body r) zero_todo = (t, None) ->
  todo.Title t = "" ->
  createTodo r w =
    (Returned tt,
     {| db := db w; ids := ids w;
        trace := trace w ++
          [Rendered StatusProcessing
             (PMap {[ "error" := VString "The title cannot be empty" ]})] |}).
Proof.
  intros Hdecode Htitle. unfold createTodo. rewrite Hdecode, Htitle.
  run_handler. reflexivity.
Qed.

Lemma createTodo_empty_title_witness :
  let r := memory.POST (Document (Some "7") (Some "") (Some true) (Some 99)) in
  let w := memory.world memory.strict memory.online in
  json.Decode (Body r) zero_todo =
    ({| todo.ID := "7"; todo.Title := ""; todo.Completed := true;
        todo.CreatedAt := 99 |}, None) /\
  createTodo r w =
    (Returned tt,
     @mkWorld memory.strict memory.online memory.gen0
        [Rendered StatusProcessing
           (PMap {[ "error" := VString "The title cannot be empty" ]})]).
Proof.
  split; [reflexivity |].
  apply (createTodo_empty_title (C := memory.strict)
           (memory.POST (Document (Some "7") (Some "") (Some true) (Some 99)))
           (memory.world memory.strict memory.online)
           {| todo.ID := "7"; todo.Title := ""; todo.Completed := true;
              todo.CreatedAt := 99 |}); reflexivity.
Defined.

(** C9: on every DELETE request whose (trimmed) id is not valid identifier
    hex the handler passes its guard, renders nothing, and calls
    [bson.ObjectIdHex] on that invalid string, which panics: the run ends
    in the panic with the world untouched (no call on the store). *)
Theorem deleteTodo_invalid_id_panics {C : Collaborators} (r : Request) (w : World) :
  bson.IsObjectIdHex (strings.TrimSpace (chi.URLParam r "id")) = false ->
  bson.ObjectIdHex (strings.TrimSpace (chi.URLParam r "id")) =
    inr (invalidObjectIdHex (strings.TrimSpace (chi.URLParam r "id"))) /\
  deleteTodo r w =
    (Panicked (invalidObjectIdHex (strings.TrimSpace (chi.URLParam r "id"))), w).
Proof.
  intros Hguard. pose proof (ObjectIdHex_invalid _ Hguard) as Hpanic.
  split; [exact Hpanic |].
  unfold deleteTodo. rewrite Hguard. run_handler. rewrite Hpanic. reflexivity.
Qed.

Lemma deleteTodo_invalid_id_panics_witness :
  bson.IsObjectIdHex (strings.TrimSpace (chi.URLParam (memory.withId "not-an-id") "id")) = false /\
  deleteTodo (memory.withId "not-an-id") (memory.world memory.lenient memory.online) =
    (Panicked (invalidObjectIdHex "not-an-id"),
     memory.world memory.lenient memory.online).
Proof.
  split; [reflexivity |].
  apply (deleteTodo_invalid_id_panics (C := memory.lenient)
           (memory.withId "not-an-id")
           (memory.world memory.lenient memory.online)).
  reflexivity.
Defined.

(** The other half of the guard: a syntactically valid id is answered with
    400 and never reaches the store. *)
Lemma deleteTodo_valid_id_rejected {C : Collaborators} (r : Request) (w : World) :
  bson.IsObjectIdHex (strings.TrimSpace (chi.URLParam r "id")) = true ->
  let p := PMap {[ "error" := VString "Invalid URL request" ]} in
  deleteTodo r w =
    match writeJSON StatusBadRequest p with
    | None =>
        (Returned tt,
         {| db := db w; ids := ids w;
            trace := trace w ++ [Rendered StatusBadRequest p] |})
    | Some e =>
        (Exited 1,
         {| db := db w; ids := ids w;
            trace := trace w ++ [Rendered StatusBadRequest p; Fatal e] |})
    end.
Proof.
  intros Hguard p. unfold deleteTodo. rewrite Hguard. run_handler.
  fold p. destruct (writeJSON StatusBadRequest p); cbn [db ids trace];
    rewrite <- ?app_assoc; reflexivity.
Qed.

(** C1, evaluated on the code: with the record [doc1] in the collection,
    [DELETE /todo/not-an-id] is not answered with 400: the handler panics
    in the decode and the client gets no response; and
    [DELETE /todo/5f5e10006162631092000002], the valid id of [doc1], is
    answered 400 "Invalid URL request" without [RemoveId] being called, so
    the record stays. The guard of [deleteTodo] has the opposite polarity
    of the one the claim states. *)
Theorem deleteTodo_guard_inverted :
  let w := memory.world memory.lenient memory.online in
  bson.IsObjectIdHex "not-an-id" = false /\
  serve (deleteTodo (memory.withId "not-an-id")) w = (None, w) /\
  bson.Hex (todoModel.ID memory.doc1) = "5f5e10006162631092000002" /\
  bson.IsObjectIdHex "5f5e10006162631092000002" = true /\
  serve (deleteTodo (memory.withId "5f5e10006162631092000002")) w =
    (Some {| status := StatusBadRequest;
             body := Some (PMap {[ "error" := VString "Invalid URL request" ]}) |},
     @mkWorld memory.lenient memory.online memory.gen0
        [Rendered StatusBadRequest
           (PMap {[ "error" := VString "Invalid URL request" ]})]).
Proof. repeat split. Qed.

(** C4: the update handler does nothing: it returns at once, the world
    (collection, generator, trace) is unchanged, and the server answers
    the request with status 200 and an empty body. *)
Theorem updateTodo_noop {C : Collaborators} (r : Request) (w : World) :
  updateTodo r w = (Returned tt, w) /\
  written w (snd (updateTodo r w)) = [] /\
  serve (updateTodo r) w = (Some {| status := StatusOK; body := None |}, w).
Proof.
  unfold serve, written, updateTodo. run_handler. cbn.
  rewrite drop_all. repeat split.
Qed.

(** The struct tags of [todoModel] do not pass the check of [bson]. *)
Lemma todoModel_tags_rejected :
  bson.getStructInfo todoModel.name todoModel.tags = Some todoModelPanic.
Proof. reflexivity. Qed.

(** What [fetchTodo] does when the cursor delivers no document. *)
Lemma fetchTodo_no_document {C : Collaborators} (r : Request) (w : World)
    (err : option error) :
  All (db w) = ([], err) ->
  fetchTodo r w =
    let p :=
      match err with
      | Some e => PMap {[ "message" := VString "Failed to fetch todo";
                          "error" := VError e ]}
      | None => PMap {[ "data" := VTodos (slice_of []) ]}
      end in
    let st := match err with Some _ => StatusProcessing | None => StatusOK end in
    match writeJSON st p with
    | None =>
        (Returned tt,
         {| db := db w; ids := ids w; trace := trace w ++ [Found; Rendered st p] |})
    | Some e1 =>
        (Exited 1,
         {| db := db w; ids := ids w;
            trace := trace w ++ [Found; Rendered st p; Fatal e1] |})
    end.
Proof.
  intros Hall. unfold fetchTodo. run_handler. rewrite Hall.
  destruct err as [e |]; cbn zeta; cbn [fold_left];
    destruct (writeJSON _ _); cbn [db ids trace];
    rewrite <- ?app_assoc; reflexivity.
Qed.

(** What [fetchTodo] does when the cursor delivers a document: decoding
    it panics, before anything is rendered. *)
Lemma fetchTodo_document {C : Collaborators} (r : Request) (w : World)
    (d : todoModel) (ds : list todoModel) (err : option error) :
  All (db w) = (d :: ds, err) ->
  fetchTodo r w =
    (Panicked todoModelPanic,
     {| db := db w; ids := ids w; trace := trace w ++ [Found] |}).
Proof.
  intros Hall. unfold fetchTodo. run_handler. rewrite Hall, todoModel_tags_rejected.
  reflexivity.
Qed.

(** C5: when [All] succeeds with no record, the list handler renders
    status 200 with [{data: []}]: the value under [data] is an empty,
    non-nil slice, which is written as the array [[]] and not as [null].
    The handler then returns (or, if the writer reports an error, ends the
    process through [checkerr]). *)
Theorem fetchTodo_empty_collection {C : Collaborators} (r : Request) (w : World) :
  All (db w) = ([], None) ->
  let p := PMap {[ "data" := VTodos (slice_of []) ]} in
  fetchTodo r w =
    match writeJSON StatusOK p with
    | None =>
        (Returned tt,
         {| db := db w; ids := ids w;
            trace := trace w ++ [Found; Rendered StatusOK p] |})
    | Some e =>
        (Exited 1,
         {| db := db w; ids := ids w;
            trace := trace w ++ [Found; Rendered StatusOK p; Fatal e] |})
    end
  /\ marshalM {[ "data" := VTodos (slice_of []) ]} = {[ "data" := JArray [] ]}
  /\ marshalM {[ "data" := VTodos (slice_of []) ]} <> {[ "data" := JNull ]}.
Proof.
  intros Hall p. split; [exact (fetchTodo_no_document r w None Hall) |].
  unfold marshalM. rewrite map_fmap_singleton. cbn [marshal map]. split; [reflexivity |].
  intros Heq. apply (f_equal (fun m => m !! "data")) in Heq.
  rewrite !lookup_singleton_eq in Heq. discriminate.
Qed.

Lemma fetchTodo_empty_collection_witness :
  All (db (memory.world memory.lenient memory.empty)) = ([], None) /\
  serve (fetchTodo (memory.POST (Document None None None None)))
        (memory.world memory.lenient memory.empty) =
    (Some {| status := StatusOK;
             body := Some (PMap {[ "data" := VTodos (slice_of []) ]}) |},
     @mkWorld memory.lenient memory.empty memory.gen0
        [Found; Rendered StatusOK (PMap {[ "data" := VTodos (slice_of []) ]})]).
Proof.
  split; [reflexivity |].
  unfold serve.
  rewrite (proj1 (fetchTodo_empty_collection (C := memory.lenient)
                    (memory.POST (Document None None None None))
                    (memory.world memory.lenient memory.empty) eq_refl)).
  reflexivity.
Defined.

(** C8, evaluated on the code: the list handler never gets to map a
    record to its wire form. Whenever the cursor delivers at least one
    document, unmarshalling the first one into [todoModel] panics in
    [bson] over the tag of the [ID] field, so the handler ends in that
    panic after the find, having rendered nothing: no [data] array is
    sent. With the record [doc1] in the collection, GET /todo gets no
    response. *)
Theorem fetchTodo_panics_on_documents :
  (forall (C : Collaborators) (r : Request) (w : World),
     match All (db w) with
     | (_ :: _, _) =>
         fetchTodo r w =
           (Panicked todoModelPanic,
            {| db := db w; ids := ids w; trace := trace w ++ [Found] |})
     | ([], _) => True
     end)
  /\ bson.getStructInfo todoModel.name todoModel.tags =
       Some (unsupportedFlag " omitempty" "_id, omitempty" "main.todoModel")
  /\ (let r := memory.POST (Document None None None None) in
      let w := memory.world memory.lenient memory.online in
      All (db w) = ([memory.doc1], None) /\
      serve (fetchTodo r) w =
        (None, @mkWorld memory.lenient memory.online memory.gen0 [Found])).
Proof.
  split; [| repeat split].
  intros C r w. destruct (All (db w)) as [[| d ds] err] eqn:Hall; [exact I |].
  exact (fetchTodo_document r w d ds err Hall).
Qed.

(** What [createTodo] does with a decoded body whose title is not empty:
    it generates an identifier and calls [Insert] with the record. If the
    driver gets no socket, the error is rendered; if it gets one,
    marshalling the record panics in [bson], and nothing is sent to the
    server or to the client. *)
Lemma createTodo_insert_call {C : Collaborators} (r : Request) (w : World) (t : todo)
    (id : bson.ObjectId) (g : bson.generator) :
  json.Decode (Body r) zero_todo = (t, None) ->
  todo.Title t <> "" ->
  bson.NewObjectId (ids w) = (id, g) ->
  createTodo r w =
    match AcquireSocket (db w) with
    | None =>
        (Panicked todoModelPanic,
         {| db := db w; ids := g; trace := trace w ++ [Inserted (toRecord t id)] |})
    | Some e =>
        let p := PMap {[ "message" := VString "Failed to create TODO";
                         "error" := VError e ]} in
        match writeJSON StatusProcessing p with
        | None =>
            (Returned tt,
             {| db := db w; ids := g;
                trace := trace w ++ [Inserted (toRecord t id); Rendered StatusProcessing p] |})
        | Some e1 =>
            (Exited 1,
             {| db := db w; ids := g;
                trace := trace w ++
                  [Inserted (toRecord t id); Rendered StatusProcessing p; Fatal e1] |})
        end
    end.
Proof.
  intros Hdecode Htitle Hid. unfold createTodo. rewrite Hdecode.
  apply String.eqb_neq in Htitle. rewrite Htitle.
  run_handler. rewrite Hid. cbn [db ids trace].
  destruct (AcquireSocket (db w)) as [e |].
  - cbn zeta. destruct (writeJSON StatusProcessing _);
      cbn [db ids trace]; rewrite <- ?app_assoc; reflexivity.
  - rewrite todoModel_tags_rejected. reflexivity.
Qed.

(** What [createTodo] does when the body does not decode. *)
Lemma createTodo_decode_error {C : Collaborators} (r : Request) (w : World)
    (t : todo) (e : error) :
  json.Decode (Body r) zero_todo = (t, Some e) ->
  createTodo r w =
    match writeJSON StatusProcessing (PError e) with
    | None =>
        (Returned tt,
         {| db := db w; ids := ids w;
            trace := trace w ++ [Rendered StatusProcessing (PError e)] |})
    | Some e1 =>
        (Exited 1,
         {| db := db w; ids := ids w;
            trace := trace w ++ [Rendered StatusProcessing (PError e); Fatal e1] |})
    end.
Proof.
  intros Hdecode. unfold createTodo. rewrite Hdecode. run_handler.
  destruct (writeJSON StatusProcessing (PError e)); cbn [db ids trace];
    rewrite <- ?app_assoc; reflexivity.
Qed.

(** The runs of [createTodo]: either the request is refused before an
    identifier is generated and nothing reaches the store, or [Insert] is
    called once with the record built from the decoded body and a new
    identifier, after which only status 102 can be rendered. In both
    cases the collection is as before. *)
Lemma createTodo_run {C : Collaborators} (r : Request) (w : World) :
  (storeCalls (written w (snd (createTodo r w))) = [] /\
   (forall p, ~ In (Rendered StatusCreated p) (written w (snd (createTodo r w)))) /\
   db (snd (createTodo r w)) = db w /\
   ids (snd (createTodo r w)) = ids w)
  \/
  (exists t rest,
     json.Decode (Body r) zero_todo = (t, None) /\
     todo.Title t <> "" /\
     written w (snd (createTodo r w)) =
       Inserted (toRecord t (fst (bson.NewObjectId (ids w)))) :: rest /\
     storeCalls rest = [] /\
     (forall p, ~ In (Rendered StatusCreated p) rest) /\
     ids (snd (createTodo r w)) = snd (bson.NewObjectId (ids w)) /\
     db (snd (createTodo r w)) = db w).
Proof.
  destruct (json.Decode (Body r) zero_todo) as [t [e |]] eqn:Hdecode.
  - left. rewrite (createTodo_decode_error r w t e Hdecode).
    destruct (writeJSON StatusProcessing (PError e)); cbn [fst snd db ids];
      rewrite written_app; repeat split;
      intros p Hin; cbn in Hin; intuition discriminate.
  - destruct (decide (todo.Title t = "")) as [Htitle | Htitle].
    + left.
      assert (Hrun : createTodo r w =
                (Returned tt,
                 {| db := db w; ids := ids w;
                    trace := trace w ++
                      [Rendered StatusProcessing
                         (PMap {[ "error" := VString "The title cannot be empty" ]})] |})).
      { unfold createTodo. rewrite Hdecode, Htitle. run_handler. reflexivity. }
      rewrite Hrun. cbn [fst snd db ids]. rewrite written_app. repeat split.
      intros p Hin; cbn in Hin; intuition discriminate.
    + right. destruct (bson.NewObjectId (ids w)) as [id g] eqn:Hid.
      rewrite (createTodo_insert_call r w t id g Hdecode Htitle Hid).
      cbn [fst snd]. exists t.
      destruct (AcquireSocket (db w)) as [e |]; cbn zeta;
        [destruct (writeJSON StatusProcessing _) |];
        cbn [fst snd db ids]; rewrite written_app;
        eexists; repeat split; try reflexivity; try exact Htitle;
        intros p Hin; cbn in Hin; intuition discriminate.
Qed.

(** C6, evaluated on the code: no create request is ever answered with
    201. For a decoded body with a non-empty title the handler calls
    [Insert]; when the driver has a socket, marshalling the record panics
    in [bson] over the tag of the [ID] field, so the insert never
    succeeds: the handler ends in that panic, nothing is stored and the
    client gets no response. With a reachable store, POST /todo with
    title "walk the dog" does just that. *)
Theorem createTodo_never_created :
  (forall (C : Collaborators) (r : Request) (w : World) (p : Payload),
     ~ In (Rendered StatusCreated p) (written w (snd (createTodo r w))))
  /\ bson.getStructInfo todoModel.name todoModel.tags =
       Some (unsupportedFlag " omitempty" "_id, omitempty" "main.todoModel")
  /\ (let r := memory.POST (Document None (Some "walk the dog") None (Some 1234567)) in
      let w := memory.world memory.lenient memory.online in
      let tm := {| todoModel.ID := fst (bson.NewObjectId memory.gen0);
                   todoModel.Title := "walk the dog"; todoModel.Completed := false;
                   todoModel.CreatedAt := 1234567 |} in
      AcquireSocket (db w) = None /\
      fst (createTodo r w) =
        Panicked (unsupportedFlag " omitempty" "_id, omitempty" "main.todoModel") /\
      serve (createTodo r) w =
        (None,
         @mkWorld memory.lenient memory.online (snd (bson.NewObjectId memory.gen0))
            [Inserted tm])).
Proof.
  split; [| repeat split].
  intros C r w p Hin.
  destruct (createTodo_run r w)
    as [(_ & Hno & _) | (t & rest & _ & _ & Hwritten & _ & Hno & _)].
  - exact (Hno p Hin).
  - rewrite Hwritten in Hin. destruct Hin as [Heq | Hin]; [discriminate |].
    exact (Hno p Hin).
Qed.

(** C10, evaluated on the code: no create request persists anything. The
    record handed to [Insert] does carry the [createdAt] of the body (the
    zero time when the body has none), but the collection is the same
    after every run of [createTodo]: either no socket is acquired, or
    marshalling the record panics before it is sent. With a reachable
    store, POST /todo with title "no date" and no [createdAt] calls
    [Insert] with a record whose [CreatedAt] is the zero time, panics,
    and leaves [doc1] as the only record. *)
Theorem createTodo_persists_nothing :
  (forall (C : Collaborators) (r : Request) (w : World),
     db (snd (createTodo r w)) = db w)
  /\ (let r := memory.POST (Document (Some "mine") (Some "no date") (Some true) None) in
      let w := memory.world memory.lenient memory.online in
      let tm := {| todoModel.ID := fst (bson.NewObjectId memory.gen0);
                   todoModel.Title := "no date"; todoModel.Completed := true;
                   todoModel.CreatedAt := zeroTime |} in
      createTodo r w =
        (Panicked (unsupportedFlag " omitempty" "_id, omitempty" "main.todoModel"),
         @mkWorld memory.lenient memory.online (snd (bson.NewObjectId memory.gen0))
            [Inserted tm]) /\
      memory.docs (db (snd (createTodo r w))) = [memory.doc1]).
Proof.
  split; [| repeat split].
  intros C r w.
  destruct (createTodo_run r w) as [(_ & _ & Hdb & _) | (t & rest & Hrest)];
    [exact Hdb | apply Hrest].
Qed.

(** ** Errors of the create handler *)

Lemma prefix_length (h s : string) :
  String.prefix h s = true -> (String.length h <= String.length s)%nat.
Proof.
  revert s. induction h as [| a h IH]; intros s Hprefix; cbn; [lia |].
  destruct s as [| b s]; cbn in Hprefix; [discriminate |].
  destruct (ascii_dec a b); [| discriminate].
  specialize (IH s Hprefix). cbn. lia.
Qed.

(** A string does not occur in a shorter one. *)
Lemma occursIn_shorter (h s : string) :
  (String.length s < String.length h)%nat -> occursIn h s = false.
Proof.
  induction s as [| c s IH]; intros Hlen.
  - destruct h; [cbn in Hlen; lia | reflexivity].
  - cbn [occursIn]. apply orb_false_iff. split.
    + destruct (String.prefix h (String c s)) eqn:Hprefix; [| reflexivity].
      apply prefix_length in Hprefix. lia.
    + apply IH. cbn in Hlen. lia.
Qed.

(** When a create request falls in the class of store errors, the error
    is the one of the socket acquisition, which is decided by the store
    alone, and the record is the decoded body with the generator's next
    identifier. *)
Lemma createFails_store_error {C : Collaborators} (r : Request) (w : World)
    (tm : todoModel) (e : error) :
  createFails r w = Some (StoreError tm e) ->
  exists t,
    json.Decode (Body r) zero_todo = (t, None) /\
    todo.Title t <> "" /\
    tm = toRecord t (fst (bson.NewObjectId (ids w))) /\
    AcquireSocket (db w) = Some e.
Proof.
  unfold createFails. intros Hfails.
  destruct (json.Decode (Body r) zero_todo) as [t [e0 |]]; [discriminate |].
  destruct (decide (todo.Title t = "")) as [Htitle | Htitle]; [discriminate |].
  exists t. unfold db_Insert in Hfails. cbn zeta in Hfails.
  destruct (AcquireSocket (db w)) as [e1 |].
  - cbn [fst] in Hfails. injection Hfails as <- <-. repeat split. exact Htitle.
  - rewrite todoModel_tags_rejected in Hfails. discriminate.
Qed.

(** C7 as stated fails: with the collection unreachable and a response
    writer that refuses a body under a 1xx status, the insert fails, the
    handler renders the failure payload with status 102, the writer
    reports an error, and [checkerr] ends the process. *)
Lemma createTodo_store_error_exits :
  let r := memory.POST (Document None (Some "x") None None) in
  let w := memory.world memory.strict memory.offline in
  let tm := {| todoModel.ID := fst (bson.NewObjectId memory.gen0);
               todoModel.Title := "x"; todoModel.Completed := false;
               todoModel.CreatedAt := zeroTime |} in
  createFails r w = Some (StoreError tm memory.EOF) /\
  createTodo r w =
    (Exited 1,
     @mkWorld memory.strict memory.offline (snd (bson.NewObjectId memory.gen0))
        [Inserted tm;
         Rendered StatusProcessing
           (PMap {[ "message" := VString "Failed to create TODO";
                    "error" := VError memory.EOF ]});
         Fatal memory.ErrBodyNotAllowed]) /\
  fst (createTodo r w) <> Returned tt.
Proof. repeat split. discriminate. Qed.

(** C7, amended only in its last part: every error of a create request
    (decode, validation, store) is handed to the renderer as its JSON
    error payload with status 102, after the insert call when it is a
    store error, and the handler does not panic. It then returns, unless
    the renderer reports an error on a decode-error or store-error
    payload, in which case [checkerr] ends the process with status 1 (on
    the empty-title path the renderer's result is ignored). For a store
    error the payload is [{message: "Failed to create TODO", error: e}]
    and the generated identifier is not in it: there is no [todo_id]
    entry, the message is too short to hold the identifier's hex form,
    [e] is the error of the socket acquisition, which the store decides
    without the record, and the whole response is the same whatever
    identifier the generator produces. *)
Theorem createTodo_errors_rendered {C : Collaborators} (r : Request) (w : World)
    (ce : createError) :
  createFails r w = Some ce ->
  let p := errorPayload ce in
  let fatal :=
    match ce, writeJSON StatusProcessing p with
    | ValidationError, _ | _, None => []
    | _, Some e1 => [Fatal e1]
    end in
  written w (snd (createTodo r w)) =
    (match ce with
     | StoreError tm _ => [Inserted tm]
     | _ => []
     end ++ Rendered StatusProcessing p :: fatal)%list
  /\ fst (createTodo r w) =
       match fatal with
       | [] => Returned tt
       | _ => Exited 1
       end
  /\ (forall v, fst (createTodo r w) <> Panicked v)
  /\ match ce with
     | StoreError tm e =>
         let m : M := {[ "message" := VString "Failed to create TODO";
                         "error" := VError e ]} in
         p = PMap m
         /\ m !! "todo_id" = None
         /\ occursIn (bson.Hex (todoModel.ID tm)) "Failed to create TODO" = false
         /\ AcquireSocket (db w) = Some e
         /\ forall g' : bson.generator,
              exists tm',
                todoModel.ID tm' = fst (bson.NewObjectId g') /\
                createFails r (withGenerator g' w) = Some (StoreError tm' e) /\
                written (withGenerator g' w) (snd (createTodo r (withGenerator g' w))) =
                  Inserted tm' :: Rendered StatusProcessing p :: fatal
     | _ => True
     end.
Proof.
  intros Hfails.
  destruct ce as [e | | tm e].
  - unfold createFails in Hfails.
    destruct (json.Decode (Body r) zero_todo) as [t [e0 |]] eqn:Hdecode.
    + injection Hfails as ->. cbn zeta. cbn [errorPayload app].
      rewrite (createTodo_decode_error r w t e Hdecode).
      destruct (writeJSON StatusProcessing (PError e)); cbn [fst snd];
        rewrite written_app; repeat split; discriminate.
    + destruct (decide (todo.Title t = "")); [discriminate |].
      destruct (fst (db_Insert _ w)) as [[?|] | |]; discriminate.
  - unfold createFails in Hfails.
    destruct (json.Decode (Body r) zero_todo) as [t [e0 |]] eqn:Hdecode; [discriminate |].
    destruct (decide (todo.Title t = "")) as [Htitle | Htitle].
    + cbn zeta. cbn [errorPayload app].
      assert (Hrun : createTodo r w =
                (Returned tt,
                 {| db := db w; ids := ids w;
                    trace := trace w ++
                      [Rendered StatusProcessing
                         (PMap {[ "error" := VString "The title cannot be empty" ]})] |})).
      { unfold createTodo. rewrite Hdecode, Htitle. run_handler. reflexivity. }
      rewrite Hrun. cbn [fst snd].
      rewrite written_app. repeat split; discriminate.
    + destruct (fst (db_Insert _ w)) as [[?|] | |]; discriminate.
  - destruct (createFails_store_error r w tm e Hfails)
      as (t & Hdecode & Htitle & -> & Hsocket).
    cbn zeta. cbn [errorPayload app].
    assert (Hrun : forall g0 : bson.generator,
              createTodo r (withGenerator g0 w) =
                let p := PMap {[ "message" := VString "Failed to create TODO";
                                 "error" := VError e ]} in
                match writeJSON StatusProcessing p with
                | None =>
                    (Returned tt,
                     {| db := db w; ids := snd (bson.NewObjectId g0);
                        trace := trace w ++
                          [Inserted (toRecord t (fst (bson.NewObjectId g0)));
                           Rendered StatusProcessing p] |})
                | Some e1 =>
                    (Exited 1,
                     {| db := db w; ids := snd (bson.NewObjectId g0);
                        trace := trace w ++
                          [Inserted (toRecord t (fst (bson.NewObjectId g0)));
                           Rendered StatusProcessing p; Fatal e1] |})
                end).
    { intros g0.
      rewrite (createTodo_insert_call r (withGenerator g0 w) t
                 (fst (bson.NewObjectId g0)) (snd (bson.NewObjectId g0)) Hdecode Htitle)
        by (cbn [withGenerator ids]; destruct (bson.NewObjectId g0); reflexivity).
      cbn [withGenerator db trace]. rewrite Hsocket. reflexivity. }
    assert (Hw : withGenerator (ids w) w = w) by (destruct w; reflexivity).
    pose proof (Hrun (ids w)) as Hrun0. rewrite Hw in Hrun0. cbn zeta in Hrun0.
    assert (Hshort : occursIn (bson.Hex (todoModel.ID
                        (toRecord t (fst (bson.NewObjectId (ids w))))))
                       "Failed to create TODO" = false).
    { apply occursIn_shorter. cbn [toRecord todoModel.ID]. unfold bson.Hex.
      rewrite length_EncodeToString, length_NewObjectId. cbn. lia. }
    assert (Hfresh : forall g' : bson.generator,
              createFails r (withGenerator g' w) =
                Some (StoreError (toRecord t (fst (bson.NewObjectId g'))) e)).
    { intros g'. unfold createFails. rewrite Hdecode.
      destruct (decide (todo.Title t = "")) as [Hempty | _]; [contradiction |].
      unfold db_Insert. cbn [withGenerator db ids trace fst]. rewrite Hsocket.
      reflexivity. }
    rewrite Hrun0.
    destruct (writeJSON StatusProcessing _) as [e1 |] eqn:Hwrite; cbn [fst snd];
      rewrite written_app;
      (split; [reflexivity |]); (split; [reflexivity |]);
      (split; [discriminate |]); (split; [reflexivity |]);
      (split; [reflexivity |]); (split; [exact Hshort |]);
      (split; [exact Hsocket |]);
      intros g'; exists (toRecord t (fst (bson.NewObjectId g')));
      (split; [reflexivity |]); (split; [apply Hfresh |]);
      rewrite (Hrun g'); cbn zeta; rewrite Hwrite; cbn [snd];
      unfold written; cbn [withGenerator trace]; apply drop_app_length.
Qed.

Lemma createTodo_errors_rendered_witness :
  let r := memory.POST (Document None (Some "x") None None) in
  let w := memory.world memory.lenient memory.offline in
  let tm := toRecord {| todo.ID := ""; todo.Title := "x"; todo.Completed := false;
                        todo.CreatedAt := zeroTime |}
              (fst (bson.NewObjectId memory.gen0)) in
  createFails r w = Some (StoreError tm memory.EOF) /\
  written w (snd (createTodo r w)) =
    [Inserted tm;
     Rendered StatusProcessing
       (PMap {[ "message" := VString "Failed to create TODO";
                "error" := VError memory.EOF ]})] /\
  fst (createTodo r w) = Returned tt.
Proof.
  intros r w tm. split; [reflexivity |].
  pose proof (createTodo_errors_rendered (C := memory.lenient) r w
                (StoreError tm memory.EOF) eq_refl) as (Hwritten & Hout & _).
  split; [exact Hwritten | exact Hout].
Defined.

(** ** Further facts: identifiers in hex form *)

(** A hex digit starts no white-space rune and ends none. *)
Lemma runeWidth_hex (c : ascii) (rest : string) :
  is_Some (hex.fromHexChar c) ->
  strings.runeWidth strings.spaceRunes (String c rest) = 0%nat /\
  strings.runeWidth (map strings.reverse strings.spaceRunes) (String c rest) = 0%nat.
Proof.
  intros [n Hn].
  destruct c as [[] [] [] [] [] [] [] []];
    first [ discriminate Hn | split; vm_compute; reflexivity ].
Qed.

Lemma trimLeft_hex (s : string) :
  Forall (fun c => is_Some (hex.fromHexChar c)) (list_ascii_of_string s) ->
  strings.trimLeft strings.spaceRunes 0 s = s /\
  strings.trimLeft (map strings.reverse strings.spaceRunes) 0 s = s.
Proof.
  destruct s as [| c rest]; [split; reflexivity |].
  cbn [list_ascii_of_string]. intros Hall. inversion Hall as [| ? ? Hc _]; subst.
  destruct (runeWidth_hex c rest Hc) as [Hl Hr].
  cbn [strings.trimLeft]. rewrite Hl, Hr. split; reflexivity.
Qed.

Lemma reverse_involutive (s : string) : strings.reverse (strings.reverse s) = s.
Proof.
  unfold strings.reverse.
  rewrite list_ascii_of_string_of_list_ascii, rev_involutive.
  apply string_of_list_ascii_of_string.
Qed.

(** [TrimSpace] leaves a string of hex digits as it is. *)
Lemma TrimSpace_hex (s : string) :
  Forall (fun c => is_Some (hex.fromHexChar c)) (list_ascii_of_string s) ->
  strings.TrimSpace s = s.
Proof.
  intros Hall. unfold strings.TrimSpace, strings.TrimLeftSpace, strings.TrimRightSpace.
  rewrite (proj1 (trimLeft_hex s Hall)).
  assert (Hrev : Forall (fun c => is_Some (hex.fromHexChar c))
                   (list_ascii_of_string (strings.reverse s))).
  { unfold strings.reverse. rewrite list_ascii_of_string_of_list_ascii.
    apply Forall_rev. exact Hall. }
  rewrite (proj2 (trimLeft_hex _ Hrev)). apply reverse_involutive.
Qed.

Lemma EncodeToString_hex (id : string) :
  Forall (fun c => is_Some (hex.fromHexChar c))
    (list_ascii_of_string (hex.EncodeToString id)).
Proof.
  induction id as [| v rest IH]; cbn [hex.EncodeToString list_ascii_of_string].
  - constructor.
  - destruct (hex_byte_roundtrip v) as (Hhi & Hlo & _).
    constructor; [rewrite Hhi; eexists; reflexivity |].
    constructor; [rewrite Hlo; eexists; reflexivity | exact IH].
Qed.

(** The hex form of a twelve-byte identifier passes the guard of
    [deleteTodo], trimming included. *)
Lemma IsObjectIdHex_TrimSpace_Hex (id : bson.ObjectId) :
  String.length id = 12%nat ->
  bson.IsObjectIdHex (strings.TrimSpace (bson.Hex id)) = true.
Proof.
  intros Hlen. unfold bson.Hex at 1. rewrite (TrimSpace_hex _ (EncodeToString_hex id)).
  apply IsObjectIdHex_Hex, Hlen.
Qed.

(** ** Further facts: the delete handler *)

(** X1: whatever the request, [deleteTodo] never reaches the collection.
    Its run is one of three: it returns after rendering 400 "Invalid URL
    request", the process exits after that rendering failed, or it panics
    in [ObjectIdHex] having rendered nothing. The collection and the
    generator are always as before, and no call on the store is made;
    the branch that calls [RemoveId] is never taken. *)
Theorem deleteTodo_never_reaches_store {C : Collaborators} (r : Request) (w : World) :
  let id := strings.TrimSpace (chi.URLParam r "id") in
  let p := PMap {[ "error" := VString "Invalid URL request" ]} in
  db (snd (deleteTodo r w)) = db w
  /\ ids (snd (deleteTodo r w)) = ids w
  /\ storeCalls (written w (snd (deleteTodo r w))) = []
  /\ match fst (deleteTodo r w) with
     | Returned _ =>
         bson.IsObjectIdHex id = true /\
         written w (snd (deleteTodo r w)) = [Rendered StatusBadRequest p]
     | Exited c =>
         bson.IsObjectIdHex id = true /\ c = 1 /\
         exists e, writeJSON StatusBadRequest p = Some e /\
           written w (snd (deleteTodo r w)) = [Rendered StatusBadRequest p; Fatal e]
     | Panicked v =>
         bson.IsObjectIdHex id = false /\ v = invalidObjectIdHex id /\
         written w (snd (deleteTodo r w)) = []
     end.
Proof.
  intros id p.
  destruct (bson.IsObjectIdHex id) eqn:Hguard.
  - rewrite (deleteTodo_valid_id_rejected r w Hguard). fold p.
    destruct (writeJSON StatusBadRequest p) as [e |] eqn:Hwrite; cbn [fst snd db ids];
      rewrite written_app; repeat split; eauto.
  - assert (Hrun : deleteTodo r w = (Panicked (invalidObjectIdHex id), w)).
    { unfold deleteTodo. fold id. rewrite Hguard. run_handler.
      rewrite (ObjectIdHex_invalid id Hguard). reflexivity. }
    rewrite Hrun. cbn [fst snd]. unfold written. rewrite drop_all. repeat split.
Qed.

Lemma storeCalls_nil_In (events : list Event) (e : Event) :
  storeCalls events = [] -> isStoreCall e = true -> ~ In e events.
Proof.
  intros Hnil Hcall Hin.
  assert (Hin' : In e (storeCalls events)) by (apply filter_In; split; assumption).
  rewrite Hnil in Hin'. exact Hin'.
Qed.

(** X2: an identifier that the create handler generated cannot be used
    to delete: for every record [createTodo] hands to [Insert], a DELETE
    whose path id is the hex form of the record's id is answered with 400
    "Invalid URL request" in every state, and leaves the collection as it
    is. *)
Theorem delete_of_generated_id_rejected {C : Collaborators} (r r' : Request)
    (w w1 : World) (tm : todoModel) :
  In (Inserted tm) (written w (snd (createTodo r w))) ->
  chi.URLParam r' "id" = bson.Hex (todoModel.ID tm) ->
  let p := PMap {[ "error" := VString "Invalid URL request" ]} in
  bson.IsObjectIdHex (strings.TrimSpace (chi.URLParam r' "id")) = true
  /\ db (snd (deleteTodo r' w1)) = db w1
  /\ written w1 (snd (deleteTodo r' w1)) =
       Rendered StatusBadRequest p ::
         match writeJSON StatusBadRequest p with
         | None => []
         | Some e => [Fatal e]
         end
  /\ fst (deleteTodo r' w1) =
       match writeJSON StatusBadRequest p with
       | None => Returned tt
       | Some _ => Exited 1
       end.
Proof.
  intros Hin Hparam p.
  assert (Hlen : String.length (todoModel.ID tm) = 12%nat).
  { destruct (createTodo_run r w)
      as [(Hcalls & _) | (t & rest & _ & _ & Hwritten & Hrest & _)].
    - exfalso. exact (storeCalls_nil_In _ (Inserted tm) Hcalls eq_refl Hin).
    - rewrite Hwritten in Hin. destruct Hin as [Heq | Hin].
      + injection Heq as <-. apply length_NewObjectId.
      + exfalso. exact (storeCalls_nil_In _ (Inserted tm) Hrest eq_refl Hin). }
  assert (Hguard : bson.IsObjectIdHex (strings.TrimSpace (chi.URLParam r' "id")) = true).
  { rewrite Hparam. apply IsObjectIdHex_TrimSpace_Hex, Hlen. }
  split; [exact Hguard |].
  rewrite (deleteTodo_valid_id_rejected r' w1 Hguard). fold p.
  destruct (writeJSON StatusBadRequest p) as [e |]; cbn [fst snd db];
    rewrite written_app; repeat split.
Qed.

Lemma delete_of_generated_id_rejected_witness :
  let r := memory.POST (Document None (Some "walk the dog") None None) in
  let r' := memory.withId "6553f1006162631092000008" in
  let w := memory.world memory.lenient memory.online in
  let tm := toRecord {| todo.ID := ""; todo.Title := "walk the dog";
                        todo.Completed := false; todo.CreatedAt := zeroTime |}
              (fst (bson.NewObjectId memory.gen0)) in
  written w (snd (createTodo r w)) = [Inserted tm] /\
  chi.URLParam r' "id" = bson.Hex (todoModel.ID tm) /\
  db (snd (deleteTodo r' (snd (createTodo r w)))) = memory.online /\
  fst (deleteTodo r' (snd (createTodo r w))) = Returned tt.
Proof.
  intros r r' w tm. split; [reflexivity |]. split; [reflexivity |].
  pose proof (delete_of_generated_id_rejected (C := memory.lenient) r r' w
                (snd (createTodo r w)) tm
                (or_introl eq_refl) eq_refl)
    as (_ & Hdb & _ & Hout).
  split; [exact Hdb | exact Hout].
Defined.

(** ** Further facts: the list handler *)

(** X3: when [All] returns an error, the list handler renders status 102
    with [{message: "Failed to fetch todo", error: e}] and no [data]
    entry, and then returns, or the process exits if that rendering
    failed; this holds whenever no document was delivered before the
    error. If documents were delivered before it, decoding the first one
    panics and nothing is rendered. The collection is untouched either
    way. *)
Theorem fetchTodo_store_error {C : Collaborators} (r : Request) (w : World)
    (todos : list todoModel) (e : error) :
  All (db w) = (todos, Some e) ->
  let m : M := {[ "message" := VString "Failed to fetch todo"; "error" := VError e ]} in
  fetchTodo r w =
    match todos with
    | [] =>
        match writeJSON StatusProcessing (PMap m) with
        | None =>
            (Returned tt,
             {| db := db w; ids := ids w;
                trace := trace w ++ [Found; Rendered StatusProcessing (PMap m)] |})
        | Some e1 =>
            (Exited 1,
             {| db := db w; ids := ids w;
                trace := trace w ++ [Found; Rendered StatusProcessing (PMap m); Fatal e1] |})
        end
    | _ :: _ =>
        (Panicked todoModelPanic,
         {| db := db w; ids := ids w; trace := trace w ++ [Found] |})
    end
  /\ m !! "data" = None.
Proof.
  intros Hall m. split.
  - destruct todos as [| d ds].
    + exact (fetchTodo_no_document r w (Some e) Hall).
    + exact (fetchTodo_document r w d ds (Some e) Hall).
  - unfold m. rewrite lookup_insert_ne by discriminate.
    apply lookup_singleton_ne. discriminate.
Qed.

Lemma fetchTodo_store_error_witness :
  All (db (memory.world memory.lenient memory.offline)) = ([], Some memory.EOF) /\
  fetchTodo (memory.POST (Undecodable memory.EOF))
            (memory.world memory.lenient memory.offline) =
    (Returned tt,
     @mkWorld memory.lenient memory.offline memory.gen0
        [Found;
         Rendered StatusProcessing
           (PMap {[ "message" := VString "Failed to fetch todo";
                    "error" := VError memory.EOF ]})]).
Proof.
  split; [reflexivity |].
  exact (proj1 (fetchTodo_store_error (C := memory.lenient)
                  (memory.POST (Undecodable memory.EOF))
                  (memory.world memory.lenient memory.offline) [] memory.EOF eq_refl)).
Defined.

(** ** Further facts: the create handler *)



(** X5: [createTodo] makes at most one call on the store, an insert, and
    never changes the collection. When it makes no call, the identifier
    generator is as before. When it calls [Insert], the record has a
    non-empty title, carries the title, completed and createdAt of the
    decoded body, and its id is the next identifier of the generator,
    twelve bytes whose hex form is a valid external identifier; the
    generator has advanced by one. *)
Theorem createTodo_store_calls {C : Collaborators} (r : Request) (w : World) :
  match storeCalls (written w (snd (createTodo r w))) with
  | [] =>
      db (snd (createTodo r w)) = db w /\ ids (snd (createTodo r w)) = ids w
  | [Inserted tm] =>
      todoModel.Title tm <> "" /\
      tm = toRecord (fst (json.Decode (Body r) zero_todo)) (fst (bson.NewObjectId (ids w))) /\
      String.length (todoModel.ID tm) = 12%nat /\
      bson.IsObjectIdHex (bson.Hex (todoModel.ID tm)) = true /\
      ids (snd (createTodo r w)) = snd (bson.NewObjectId (ids w)) /\
      db (snd (createTodo r w)) = db w
  | _ => False
  end.
Proof.
  destruct (createTodo_run r w)
    as [(Hcalls & _ & Hdb & Hids)
       | (t & rest & Hdecode & Htitle & Hwritten & Hrest & _ & Hids & Hdb)].
  - rewrite Hcalls. split; assumption.
  - rewrite Hwritten. unfold storeCalls in *. cbn [List.filter isStoreCall].
    rewrite Hrest, Hdecode. cbn [fst toRecord todoModel.Title todoModel.ID].
    pose proof (length_NewObjectId (ids w)) as Hlen.
    repeat split; try assumption. apply IsObjectIdHex_Hex, Hlen.
Qed.

(** The record a run of [createTodo] inserted carries the next identifier
    of the generator, and the generator has advanced. *)
Lemma createTodo_inserted {C : Collaborators} (r : Request) (w : World) (tm : todoModel) :
  In (Inserted tm) (written w (snd (createTodo r w))) ->
  todoModel.ID tm = fst (bson.NewObjectId (ids w)) /\
  ids (snd (createTodo r w)) = snd (bson.NewObjectId (ids w)).
Proof.
  intros Hin.
  destruct (createTodo_run r w) as [(Hcalls & _) | (t & rest & _ & _ & Hwritten & Hrest & _ & Hids & _)].
  - exfalso. exact (storeCalls_nil_In _ (Inserted tm) Hcalls eq_refl Hin).
  - rewrite Hwritten in Hin. destruct Hin as [Heq | Hin].
    + injection Heq as <-. split; [reflexivity | exact Hids].
    + exfalso. exact (storeCalls_nil_In _ (Inserted tm) Hrest eq_refl Hin).
Qed.

Lemma byte_eq_mod (a b : Z) : bson.byte a = bson.byte b -> a mod 256 = b mod 256.
Proof.
  unfold bson.byte. intros Heq. apply (f_equal N_of_ascii) in Heq.
  change 255 with (Z.ones 8) in Heq. rewrite !Z.land_ones in Heq by lia.
  change (2 ^ 8) with 256 in Heq.
  pose proof (Z.mod_pos_bound a 256 ltac:(lia)) as Ha.
  pose proof (Z.mod_pos_bound b 256 ltac:(lia)) as Hb.
  rewrite !N_ascii_embedding in Heq by lia.
  apply Z2N.inj in Heq; lia.
Qed.

(** Two identifiers made from consecutive values of the counter differ,
    whatever the clock, the machine and the process. *)
Lemma NewObjectId_consecutive (g g' : bson.generator) :
  bson.objectIdCounter g' = bson.objectIdCounter (snd (bson.NewObjectId g)) ->
  fst (bson.NewObjectId g) <> fst (bson.NewObjectId g').
Proof.
  unfold bson.NewObjectId.
  destruct (bson.machineId g) as [[m0 m1] m2], (bson.machineId g') as [[m0' m1'] m2'].
  cbn [fst snd bson.objectIdCounter]. intros Hcounter Heq. rewrite Hcounter in Heq.
  set (i := (bson.objectIdCounter g + 1) mod 2 ^ 32) in *.
  set (j := (i + 1) mod 2 ^ 32) in *.
  injection Heq as _ _ _ _ _ _ _ _ _ H16 H8 H0.
  apply byte_eq_mod in H16, H8, H0.
  rewrite !Z.shiftr_div_pow2 in * by lia.
  assert (Hi : 0 <= i < 2 ^ 32) by (apply Z.mod_pos_bound; lia).
  assert (Hj : j = (i + 1) mod 2 ^ 32) by reflexivity.
  clearbody i j. change (2 ^ 32) with 4294967296 in *.
  change (2 ^ 16) with 65536 in *. change (2 ^ 8) with 256 in *.
  clear Hcounter. Z.div_mod_to_equations. lia.
Qed.

(** X6: two create requests served one after the other never insert
    records with the same id, whatever happened to the clock or to the
    collection in between: the ids come from consecutive values of the
    generator's counter. *)
Theorem consecutive_creates_distinct_ids {C : Collaborators} (r1 r2 : Request)
    (w w' : World) (tm1 tm2 : todoModel) :
  bson.objectIdCounter (ids w') = bson.objectIdCounter (ids (snd (createTodo r1 w))) ->
  In (Inserted tm1) (written w (snd (createTodo r1 w))) ->
  In (Inserted tm2) (written w' (snd (createTodo r2 w'))) ->
  todoModel.ID tm1 <> todoModel.ID tm2.
Proof.
  intros Hcounter Hin1 Hin2.
  destruct (createTodo_inserted r1 w tm1 Hin1) as [Hid1 Hids1].
  destruct (createTodo_inserted r2 w' tm2 Hin2) as [Hid2 _].
  rewrite Hid1, Hid2. apply NewObjectId_consecutive.
  rewrite Hcounter, Hids1. reflexivity.
Qed.

Lemma consecutive_creates_distinct_ids_witness :
  let r1 := memory.POST (Document None (Some "one") None None) in
  let r2 := memory.POST (Document None (Some "two") (Some true) None) in
  let w := memory.world memory.lenient memory.online in
  let w' := snd (createTodo r1 w) in
  let tm1 := toRecord {| todo.ID := ""; todo.Title := "one"; todo.Completed := false;
                         todo.CreatedAt := zeroTime |} (fst (bson.NewObjectId memory.gen0)) in
  let tm2 := toRecord {| todo.ID := ""; todo.Title := "two"; todo.Completed := true;
                         todo.CreatedAt := zeroTime |}
               (fst (bson.NewObjectId (snd (bson.NewObjectId memory.gen0)))) in
  trace (snd (createTodo r2 w')) = [Inserted tm1; Inserted tm2] /\
  todoModel.ID tm1 <> todoModel.ID tm2.
Proof.
  intros r1 r2 w w' tm1 tm2. split; [reflexivity |].
  apply (consecutive_creates_distinct_ids (C := memory.lenient) r1 r2 w w' tm1 tm2).
  - reflexivity.
  - left. reflexivity.
  - left. reflexivity.
Defined.

(** ** Further facts: the routes together *)

(** The runs of [fetchTodo]: one [Find] on the collection, then only
    rendering; the collection and the generator are as before. *)
Lemma fetchTodo_run {C : Collaborators} (r : Request) (w : World) :
  exists rest,
    written w (snd (fetchTodo r w)) = Found :: rest /\
    storeCalls rest = [] /\
    db (snd (fetchTodo r w)) = db w /\
    ids (snd (fetchTodo r w)) = ids w.
Proof.
  destruct (All (db w)) as [[| d ds] err] eqn:Hall.
  - rewrite (fetchTodo_no_document r w err Hall). cbn zeta.
    destruct (writeJSON _ _); cbn [fst snd db ids];
      rewrite written_app; eexists; repeat split.
  - rewrite (fetchTodo_document r w d ds err Hall). cbn [fst snd db ids].
    rewrite written_app. eexists; repeat split.
Qed.

Lemma deleteTodo_run {C : Collaborators} (r : Request) (w : World) :
  storeCalls (written w (snd (deleteTodo r w))) = [] /\
  db (snd (deleteTodo r w)) = db w.
Proof.
  destruct (bson.IsObjectIdHex (strings.TrimSpace (chi.URLParam r "id"))) eqn:Hguard.
  - rewrite (deleteTodo_valid_id_rejected r w Hguard).
    destruct (writeJSON StatusBadRequest _); cbn [fst snd db];
      rewrite written_app; repeat split.
  - unfold deleteTodo. rewrite Hguard. run_handler.
    rewrite (ObjectIdHex_invalid _ Hguard). cbn [snd]. unfold written.
    rewrite drop_all. repeat split.
Qed.

(** X7: over all four routes of [todoHandler], a request makes at most
    one call on the store, and never a [RemoveId]: only the POST route
    calls [Insert], only the GET route reads, and the PUT and DELETE
    routes make no call at all. Serving a request always leaves the
    collection as it was. *)
Theorem todoHandler_store_calls {C : Collaborators} :
  Forall (fun rt : Route =>
    forall (r : Request) (w : World),
      db (snd (handler rt r w)) = db w /\
      match storeCalls (written w (snd (handler rt r w))) with
      | [] => True
      | [Inserted tm] => method rt = POST
      | [Found] => method rt = GET
      | _ => False
      end) todoHandler.
Proof.
  unfold todoHandler. repeat constructor; cbn [handler method].
  - destruct (createTodo_run r w) as [(_ & _ & Hdb & _) | (t & rest & Hrest)];
      [exact Hdb | apply Hrest].
  - destruct (createTodo_run r w)
      as [(Hcalls & _) | (t & rest & _ & _ & Hwritten & Hrest & _)].
    + rewrite Hcalls. exact I.
    + rewrite Hwritten. unfold storeCalls in *. cbn [List.filter isStoreCall].
      rewrite Hrest. reflexivity.
  - destruct (fetchTodo_run r w) as (rest & _ & _ & Hdb & _). exact Hdb.
  - destruct (fetchTodo_run r w) as (rest & Hwritten & Hrest & _).
    rewrite Hwritten. unfold storeCalls in *. cbn [List.filter isStoreCall].
    rewrite Hrest. reflexivity.
  - unfold updateTodo. run_handler. cbn [snd]. unfold written.
    rewrite drop_all. exact I.
  - apply deleteTodo_run.
  - destruct (deleteTodo_run r w) as [Hcalls _]. rewrite Hcalls. exact I.
Qed.
